(** * A model of [app.py]: the US top-100 20-day high/low scanner.

    The Streamlit script keeps its state in [st.session_state] and runs
    one button action per rerun.  We model the session as a record, the
    three buttons as an [Action], and one rerun as the function [step].

    Prices: pandas floats are modelled as integers [Z] counting
    1/10000 of a dollar; [data.round(2)] is [round2] (numpy's
    round-half-even to a whole cent).  A Python [None] or a pandas [NaN]
    price is [None : option Z].  Dates are day numbers [Z].

    External collaborators:
    - the listing page fetched by [requests.get(URL)] is [page : list Row],
      a row carrying the text of its [div.company-name], its
      [div.company-code] (if present) and its [td] cells;
    - [yf.download(sym, period=..d)] is [download sym n]: [None] when the
      call raises, otherwise the ascending bar series (possibly empty). *)

From Stdlib Require Import ZArith Ascii Lia.
From stdpp Require Import base list gmap strings.

Open Scope Z_scope.

(** ** Data *)

Record Bar := mkBar {
  bar_date : Z;
  bar_high : Z;
  bar_low : Z;
  bar_close : Z
}.

Record Row := mkRow {
  company_name : option string;
  company_code : option string;
  cells : list string
}.

(** One row of [st.session_state.df], columns
    ["Ticker", "Name", "Current Price", "20D High", "20D Low"]. *)
Record TickerRow := mkTickerRow {
  Ticker : string;
  Name : string;
  Current_Price : option Z;
  High_20D : Z;
  Low_20D : Z
}.

(** [st.session_state]; [latest_data_date] is [None] while the key is
    absent and [Some None] for the string ["N/A"]; the refresh stamps are
    [None] for ["Never"]. *)
Record Session := mkSession {
  df : list TickerRow;
  symbols : list string;
  names : list string;
  last_full_refresh : option Z;
  last_quick_refresh : option Z;
  latest_data_date : option (option Z)
}.

(** The session after the initialisation block of the script. *)
Definition init_session : Session :=
  mkSession [] [] [] None None None.

(** What one rerun sees of the outside world. *)
Record Env := mkEnv {
  page : list Row;
  download : string -> Z -> option (list Bar);
  today : Z;
  now : Z
}.

(** One row of the "New 20D Highs/Lows" tables:
    [Ticker, Name, Today's High/Low, Previous 20D High/Low]. *)
Record NewRow := mkNewRow {
  nr_ticker : string;
  nr_name : string;
  nr_today : Z;
  nr_prev : Z
}.

Inductive Action := FullRefresh | QuickRefresh | CheckNew.

(** What the rerun reports: nothing special, the warning
    "Please run a Full Refresh first!", or the two new-extreme tables. *)
Inductive Report :=
  | Done
  | NotInitialized
  | NewExtremes (new_high_rows new_low_rows : list NewRow).

(** ** String helpers *)

(** [s.replace(c, d)] for one-character [c] and [d]. *)
Fixpoint replace_char (c d : Ascii.ascii) (s : string) : string :=
  match s with
  | EmptyString => EmptyString
  | String x rest =>
      String (if Ascii.eqb x c then d else x) (replace_char c d rest)
  end.

(** [s.replace(c, "")]. *)
Fixpoint remove_char (c : Ascii.ascii) (s : string) : string :=
  match s with
  | EmptyString => EmptyString
  | String x rest =>
      if Ascii.eqb x c then remove_char c rest else String x (remove_char c rest)
  end.

(** [ticker.replace(".", "-")] *)
Definition yf_symbol (ticker : string) : string :=
  replace_char "."%char "-"%char ticker.

(** ** numpy rounding to two decimals *)

Definition round2 (x : Z) : Z :=
  let q := x / 100 in
  let r := x mod 100 in
  if (50 <? r) || ((r =? 50) && Z.odd q) then (q + 1) * 100 else q * 100.

Definition round_bar (b : Bar) : Bar :=
  mkBar (bar_date b) (round2 (bar_high b)) (round2 (bar_low b)) (round2 (bar_close b)).

(** ** [scrape_symbols] *)

Fixpoint scrape_loop (rows : list Row) (symbols names : list string)
    : list string * list string :=
  match rows with
  | [] => (symbols, names)
  | row :: rest =>
      match company_name row, company_code row with
      | Some name, Some symbol =>
          let names' := names ++ [name] in
          let symbols' := symbols ++ [symbol] in
          if Nat.eqb (length names') 100 then (symbols', names')
          else scrape_loop rest symbols' names'
      | _, _ => scrape_loop rest symbols names
      end
  end.

Definition scrape_symbols (rows : list Row) : list string * list string :=
  scrape_loop rows [] [].

(** The pairs (company code, company name) of the listing rows that have
    both. *)
Definition tagged_pair (row : Row) : option (string * string) :=
  match company_code row, company_name row with
  | Some c, Some n => Some (c, n)
  | _, _ => None
  end.

(** ** [analyze] *)

(** [data[col].max()] and [data[col].min()]; [None] is the [NaN] of an
    empty column. *)
Definition col_max (f : Bar -> Z) (data : list Bar) : option Z :=
  match data with
  | [] => None
  | b :: bs => Some (fold_left (fun m x => Z.max m (f x)) bs (f b))
  end.

Definition col_min (f : Bar -> Z) (data : list Bar) : option Z :=
  match data with
  | [] => None
  | b :: bs => Some (fold_left (fun m x => Z.min m (f x)) bs (f b))
  end.

(** [data = data.round(2)]; drop the last bar when it is dated today. *)
Definition prepare (today : Z) (raw : list Bar) : list Bar :=
  let data := map round_bar raw in
  match last data with
  | Some lb => if bar_date lb =? today then removelast data else data
  | None => data
  end.

(** The body of the [try] block for symbol number [idx]: [None] when the
    iteration is skipped ([continue] or an exception caught by
    [except Exception]), else the appended row and [data.index[-1]]. *)
Definition analyze_one (download : string -> Z -> option (list Bar)) (today : Z)
    (names : list string) (idx : nat) (ticker : string) : option (TickerRow * Z) :=
  match download (yf_symbol ticker) 20 with
  | None => None
  | Some [] => None
  | Some raw =>
      let data := prepare today raw in
      match col_max bar_high data, col_min bar_low data, last data with
      | Some high_20, Some low_20, Some lb =>
          match names !! idx with
          | Some name =>
              Some (mkTickerRow ticker name (Some (bar_close lb)) high_20 low_20,
                    bar_date lb)
          | None => None
          end
      | _, _, _ => None
      end
  end.

Definition newer (latest : option Z) (d : Z) : option Z :=
  match latest with
  | None => Some d
  | Some l => if l <? d then Some d else Some l
  end.

Fixpoint analyze_loop (download : string -> Z -> option (list Bar)) (today : Z)
    (names : list string) (idx : nat) (syms : list string)
    (results : list TickerRow) (latest : option Z) : list TickerRow * option Z :=
  match syms with
  | [] => (results, latest)
  | ticker :: rest =>
      match analyze_one download today names idx ticker with
      | None => analyze_loop download today names (S idx) rest results latest
      | Some (r, d) =>
          analyze_loop download today names (S idx) rest (results ++ [r]) (newer latest d)
      end
  end.

Definition analyze (download : string -> Z -> option (list Bar)) (today : Z)
    (symbols names : list string) : list TickerRow * option Z :=
  analyze_loop download today names 0 symbols [] None.


(** ** Breakout filter ([Show Filtered Data]) *)

(** [df["Current Price"] > df["20D High"]]: false on a [NaN] price. *)
Definition above_high (r : TickerRow) : bool :=
  match Current_Price r with Some p => High_20D r <? p | None => false end.

Definition below_low (r : TickerRow) : bool :=
  match Current_Price r with Some p => p <? Low_20D r | None => false end.

Definition breakout (d : list TickerRow) : list TickerRow * list TickerRow :=
  (List.filter above_high d, List.filter below_low d).

(** ** Quick Refresh and New-Extreme Check *)

Section Handlers.

(** Python's [float(price_str)]: [None] when it raises [ValueError]. *)
Variable py_float : string -> option Z.

(** The [for row in rows] loop building [price_map]. *)
Fixpoint build_price_map (rows : list Row) (price_map : gmap string (option Z))
    : gmap string (option Z) :=
  match rows with
  | [] => price_map
  | row :: rest =>
      match company_code row with
      | Some sym =>
          if Nat.ltb (length (cells row)) 5 then build_price_map rest price_map
          else
            let price_str := remove_char ","%char (remove_char "$"%char (nth 4 (cells row) ""%string)) in
            build_price_map rest (<[sym := py_float price_str]> price_map)
      | None => build_price_map rest price_map
      end
  end.

(** [df["Ticker"].map(price_map)] on one row: a missing key gives [NaN]. *)
Definition map_price (price_map : gmap string (option Z)) (r : TickerRow) : TickerRow :=
  mkTickerRow (Ticker r) (Name r)
    (match price_map !! Ticker r with Some v => v | None => None end)
    (High_20D r) (Low_20D r).

(** [df.loc[df["Ticker"] == ticker, ...].values[0]]: the first match,
    [None] for the [IndexError] of an empty selection. *)
Definition stored_row (d : list TickerRow) (ticker : string) : option TickerRow :=
  List.find (fun r => String.eqb (Ticker r) ticker) d.

(** The body of the [try] block of the New-Extreme loop for symbol
    [idx]: the rows it appends to [new_high_rows] and [new_low_rows].
    An exception keeps what was appended before it. *)
Definition check_one (s : Session) (download : string -> Z -> option (list Bar))
    (idx : nat) (ticker : string) : list NewRow * list NewRow :=
  match download (yf_symbol ticker) 2 with
  | None => ([], [])
  | Some [] => ([], [])
  | Some data =>
      match last data, stored_row (df s) ticker with
      | Some last_row, Some prev =>
          let today_high := bar_high last_row in
          let today_low := bar_low last_row in
          let prev_high := High_20D prev in
          let prev_low := Low_20D prev in
          let highs :=
            if prev_high <? today_high then
              match names s !! idx with
              | Some n => Some [mkNewRow ticker n today_high prev_high]
              | None => None
              end
            else Some [] in
          match highs with
          | None => ([], [])
          | Some hs =>
              if today_low <? prev_low then
                match names s !! idx with
                | Some n => (hs, [mkNewRow ticker n today_low prev_low])
                | None => (hs, [])
                end
              else (hs, [])
          end
      | _, _ => ([], [])
      end
  end.

Fixpoint check_loop (s : Session) (download : string -> Z -> option (list Bar))
    (idx : nat) (syms : list string) : list NewRow * list NewRow :=
  match syms with
  | [] => ([], [])
  | ticker :: rest =>
      let '(h1, l1) := check_one s download idx ticker in
      let '(hs, ls) := check_loop s download (S idx) rest in
      (h1 ++ hs, l1 ++ ls)
  end.

(** One rerun of the script with one button pressed. *)
Definition step (s : Session) (a : Action) (e : Env) : Session * Report :=
  match a with
  | FullRefresh =>
      let '(syms, nms) := scrape_symbols (page e) in
      let '(d, latest) := analyze (download e) (today e) syms nms in
      (mkSession d syms nms (Some (now e)) (last_quick_refresh s) (Some latest), Done)
  | QuickRefresh =>
      match symbols s with
      | [] => (s, NotInitialized)
      | _ :: _ =>
          let price_map := build_price_map (page e) ∅ in
          (mkSession (map (map_price price_map) (df s)) (symbols s) (names s)
             (last_full_refresh s) (Some (now e)) (latest_data_date s), Done)
      end
  | CheckNew =>
      match symbols s with
      | [] => (s, NotInitialized)
      | _ :: _ =>
          let '(hs, ls) := check_loop s (download e) 0 (symbols s) in
          (s, NewExtremes hs ls)
      end
  end.

End Handlers.

(** ** Sample inputs *)

Definition usd (dollars cents : Z) : Z := dollars * 10000 + cents * 100.

Definition aapl_row : Row :=
  mkRow (Some "Apple Inc.") (Some "AAPL") ["1"; "Apple Inc.AAPL"; "$3.4 T"; "x"; "$227.50"].

Definition msft_row : Row :=
  mkRow (Some "Microsoft") (Some "MSFT") ["2"; "MicrosoftMSFT"; "$3.1 T"; "x"; "$410.00"].

(** Two past sessions of AAPL: max High 230.00, min Low 200.00, last close 227.50. *)
Definition aapl_bars : list Bar :=
  [mkBar 1 (usd 230 0) (usd 200 0) (usd 215 0); mkBar 2 (usd 229 0) (usd 220 0) (usd 227 50)].

(** A provider with the AAPL history above over 20 days, and one bar for
    today (day 3) over 2 days. *)
Definition sample_download (today_bar : Bar) (sym : string) (period : Z) : option (list Bar) :=
  if String.eqb sym "AAPL" then
    if period =? 20 then Some aapl_bars else Some [today_bar]
  else Some [].

Definition sample_env (rows : list Row) (today_bar : Bar) : Env :=
  mkEnv rows (sample_download today_bar) 3 100.

(** A [float] on the stripped cell good enough for the samples. *)
Definition sample_float (s : string) : option Z :=
  if String.eqb s "235.00" then Some (usd 235 0)
  else if String.eqb s "227.50" then Some (usd 227 50) else None.

Definition full_env : Env :=
  sample_env [aapl_row] (mkBar 3 (usd 232 0) (usd 225 0) (usd 231 0)).

Definition aapl_stored : TickerRow :=
  mkTickerRow "AAPL" "Apple Inc." (Some (usd 227 50)) (usd 230 0) (usd 200 0).

Definition after_full : Session :=
  fst (step sample_float init_session FullRefresh full_env).

Definition quick_row : Row :=
  mkRow (Some "Apple Inc.") (Some "AAPL") ["1"; "Apple Inc.AAPL"; "$3.5 T"; "x"; "$235.00"].

Definition quick_env : Env := sample_env [quick_row] (mkBar 3 0 0 0).

(** A provider that knows no symbol. *)
Definition empty_download (sym : string) (period : Z) : option (list Bar) := Some [].

Definition all_skipped_env : Env := mkEnv [aapl_row] empty_download 3 100.

(** The AAPL page and history again, with a bar for today that tops the
    20D High and undercuts the 20D Low: 235.00 high, 195.00 low. *)
Definition outside_day_env : Env :=
  sample_env [aapl_row] (mkBar 3 (usd 235 0) (usd 195 0) (usd 210 0)).

(** AAPL's 20-day series ending with a bar for today (day 3) that is
    outside the earlier range. *)
Definition today_bars : list Bar :=
  aapl_bars ++ [mkBar 3 (usd 240 0) (usd 190 0) (usd 239 0)].

Definition with_today_download (sym : string) (period : Z) : option (list Bar) :=
  if String.eqb sym "AAPL" then Some today_bars else Some [].

Definition with_today_env : Env := mkEnv [aapl_row] with_today_download 3 100.

Definition msft_stored : TickerRow :=
  mkTickerRow "MSFT" "Microsoft" (Some (usd 420 0)) (usd 415 0) (usd 380 0).

Definition nvda_stored : TickerRow :=
  mkTickerRow "NVDA" "NVIDIA" (Some (usd 110 0)) (usd 140 0) (usd 115 0).

Definition amzn_stored : TickerRow :=
  mkTickerRow "AMZN" "Amazon" None (usd 200 0) (usd 180 0).

Definition googl_stored : TickerRow :=
  mkTickerRow "GOOGL" "Alphabet" (Some (usd 190 0)) (usd 185 0) (usd 160 0).

(** A snapshot with rows above their 20D High (MSFT, GOOGL), below their
    20D Low (NVDA), inside their range (AAPL) and without a price (AMZN). *)
Definition mixed_snapshot : list TickerRow :=
  [msft_stored; aapl_stored; nvda_stored; amzn_stored; googl_stored].

(** Three stored symbols: AAPL breaks out both ways today, MSFT makes a
    new high only, NVDA's download raises. *)
Definition multi_session : Session :=
  mkSession [aapl_stored; msft_stored; nvda_stored] ["AAPL"; "MSFT"; "NVDA"]
    ["Apple Inc."; "Microsoft"; "NVIDIA"] (Some 1) None (Some (Some 2)).

Definition multi_download (sym : string) (period : Z) : option (list Bar) :=
  if String.eqb sym "AAPL" then Some [mkBar 3 (usd 235 0) (usd 195 0) (usd 210 0)]
  else if String.eqb sym "MSFT" then
    Some [mkBar 2 (usd 410 0) (usd 400 0) (usd 405 0); mkBar 3 (usd 430 0) (usd 400 0) (usd 425 0)]
  else None.

Definition multi_env : Env := mkEnv [] multi_download 3 100.

Example after_full_df :
  df after_full = [mkTickerRow "AAPL" "Apple Inc." (Some (usd 227 50)) (usd 230 0) (usd 200 0)].
Proof. reflexivity. Qed.

Example after_full_no_breakout : breakout (df after_full) = ([], []).
Proof. reflexivity. Qed.

Example quick_then_above :
  breakout (df (fst (step sample_float after_full QuickRefresh
                       (sample_env [quick_row] (mkBar 3 0 0 0)))))
  = ([mkTickerRow "AAPL" "Apple Inc." (Some (usd 235 0)) (usd 230 0) (usd 200 0)], []).
Proof. reflexivity. Qed.

Example check_new_high :
  step sample_float after_full CheckNew
    (sample_env [aapl_row] (mkBar 3 (usd 232 0) (usd 225 0) (usd 231 0)))
  = (after_full, NewExtremes [mkNewRow "AAPL" "Apple Inc." (usd 232 0) (usd 230 0)] []).
Proof. reflexivity. Qed.

(** ** Lemmas on the helpers *)

Lemma round2_mono x y : x <= y -> round2 x <= round2 y.
Proof.
  intros Hxy. unfold round2.
  pose proof (Z.div_le_mono x y 100 ltac:(lia) Hxy) as Hq.
  pose proof (Z.mod_pos_bound x 100 ltac:(lia)).
  pose proof (Z.mod_pos_bound y 100 ltac:(lia)).
  pose proof (Z.div_mod x 100 ltac:(lia)).
  pose proof (Z.div_mod y 100 ltac:(lia)).
  remember (x / 100) as q1. remember (y / 100) as q2.
  remember (x mod 100) as r1. remember (y mod 100) as r2.
  destruct (Z.ltb_spec 50 r1), (Z.eqb_spec r1 50), (Z.odd q1) eqn:O1,
    (Z.ltb_spec 50 r2), (Z.eqb_spec r2 50), (Z.odd q2) eqn:O2;
    simpl; try lia;
    destruct (Z.eq_dec q1 q2); subst; try congruence; lia.
Qed.

Lemma round_bar_low_high b : bar_low b <= bar_high b -> bar_low (round_bar b) <= bar_high (round_bar b).
Proof. intros H. simpl. by apply round2_mono. Qed.

Lemma fold_max_ge (f : Bar -> Z) bs m :
  m <= fold_left (fun m x => Z.max m (f x)) bs m /\
  forall b, b ∈ bs -> f b <= fold_left (fun m x => Z.max m (f x)) bs m.
Proof.
  revert m. induction bs as [|b' bs IH]; intros m; simpl.
  - split; [lia | intros b Hb; inversion Hb].
  - destruct (IH (Z.max m (f b'))) as [H1 H2]. split; [lia|].
    intros b Hb. apply elem_of_cons in Hb as [->|Hb]; [lia | auto].
Qed.

Lemma fold_min_le (f : Bar -> Z) bs m :
  fold_left (fun m x => Z.min m (f x)) bs m <= m /\
  forall b, b ∈ bs -> fold_left (fun m x => Z.min m (f x)) bs m <= f b.
Proof.
  revert m. induction bs as [|b' bs IH]; intros m; simpl.
  - split; [lia | intros b Hb; inversion Hb].
  - destruct (IH (Z.min m (f b'))) as [H1 H2]. split; [lia|].
    intros b Hb. apply elem_of_cons in Hb as [->|Hb]; [lia | auto].
Qed.

Lemma col_max_ge f l m : col_max f l = Some m -> forall b, b ∈ l -> f b <= m.
Proof.
  destruct l as [|b0 bs]; simpl; intros H; [discriminate|]. injection H as <-.
  intros b Hb. destruct (fold_max_ge f bs (f b0)) as [H1 H2].
  apply elem_of_cons in Hb as [->|Hb]; [lia | auto].
Qed.

Lemma col_min_le f l m : col_min f l = Some m -> forall b, b ∈ l -> m <= f b.
Proof.
  destruct l as [|b0 bs]; simpl; intros H; [discriminate|]. injection H as <-.
  intros b Hb. destruct (fold_min_le f bs (f b0)) as [H1 H2].
  apply elem_of_cons in Hb as [->|Hb]; [lia | auto].
Qed.

Lemma elem_of_removelast {A} (x : A) l : x ∈ removelast l -> x ∈ l.
Proof.
  induction l as [|a l IH]; simpl; [done|].
  destruct l as [|a' l]; [intros Hx; inversion Hx|].
  intros Hx. apply elem_of_cons in Hx as [->|Hx]; [left | right; auto].
Qed.

Lemma prepare_elem today raw b :
  b ∈ prepare today raw -> exists b0, b0 ∈ raw /\ b = round_bar b0.
Proof.
  unfold prepare. intros Hb.
  assert (Hm : b ∈ map round_bar raw).
  { destruct (last (map round_bar raw)); [|done].
    destruct (bar_date b0 =? today); [by apply elem_of_removelast | done]. }
  apply list_elem_of_fmap in Hm as (b0 & -> & Hb0). eauto.
Qed.

Lemma prepare_today today raw lb :
  last raw = Some lb -> bar_date lb = today ->
  prepare today raw = removelast (map round_bar raw).
Proof.
  intros Hl Hd. apply last_Some in Hl as (l' & ->).
  unfold prepare. rewrite map_app. cbn [map]. rewrite last_snoc. simpl. rewrite Hd, Z.eqb_refl. done.
Qed.

Lemma analyze_one_spec dl today nms idx t r d :
  analyze_one dl today nms idx t = Some (r, d) ->
  exists raw lb,
    dl (yf_symbol t) 20 = Some raw /\
    last (prepare today raw) = Some lb /\
    col_max bar_high (prepare today raw) = Some (High_20D r) /\
    col_min bar_low (prepare today raw) = Some (Low_20D r) /\
    nms !! idx = Some (Name r) /\ Ticker r = t /\
    Current_Price r = Some (bar_close lb) /\ d = bar_date lb.
Proof.
  unfold analyze_one.
  destruct (dl (yf_symbol t) 20) as [[|b0 raw]|] eqn:Hdl; try discriminate.
  destruct (col_max bar_high (prepare today (b0 :: raw))) as [h|] eqn:Hh; [|discriminate].
  destruct (col_min bar_low (prepare today (b0 :: raw))) as [l|] eqn:Hl; [|discriminate].
  destruct (last (prepare today (b0 :: raw))) as [lb|] eqn:Hlb; [|discriminate].
  destruct (nms !! idx) as [n|] eqn:Hn; [|discriminate].
  intros H. injection H as <- <-. simpl.
  exists (b0 :: raw), lb. auto 10.
Qed.

Lemma analyze_loop_elem dl today nms idx syms results latest r :
  r ∈ fst (analyze_loop dl today nms idx syms results latest) ->
  r ∈ results \/
  exists i t d, syms !! i = Some t /\ analyze_one dl today nms (idx + i)%nat t = Some (r, d).
Proof.
  revert idx results latest.
  induction syms as [|t rest IH]; intros idx results latest; simpl; [auto|].
  destruct (analyze_one dl today nms idx t) as [[r' d']|] eqn:Ha; intros Hr.
  - destruct (IH _ _ _ Hr) as [Hin | (i & t' & d & Hi & Ha')].
    + apply elem_of_app in Hin as [Hin | Hin]; [by left|].
      apply list_elem_of_singleton in Hin as ->. right.
      exists 0%nat, t, d'. rewrite Nat.add_0_r. done.
    + right. exists (S i), t', d. rewrite <- Nat.add_succ_comm. done.
  - destruct (IH _ _ _ Hr) as [Hin | (i & t' & d & Hi & Ha')]; [by left|].
    right. exists (S i), t', d. rewrite <- Nat.add_succ_comm. done.
Qed.

Lemma analyze_loop_sublist dl today nms idx syms results latest :
  exists l, map Ticker (fst (analyze_loop dl today nms idx syms results latest))
            = map Ticker results ++ l /\ l `sublist_of` syms.
Proof.
  revert idx results latest.
  induction syms as [|t rest IH]; intros idx results latest; simpl.
  - exists []. rewrite app_nil_r. split; [done | constructor].
  - destruct (analyze_one dl today nms idx t) as [[r d]|] eqn:Ha.
    + destruct (IH (S idx) (results ++ [r]) (newer latest d)) as (l & Hl & Hs).
      apply analyze_one_spec in Ha as (_ & _ & _ & _ & _ & _ & _ & Ht & _).
      exists (t :: l). rewrite Hl, map_app, <- app_assoc. simpl. rewrite Ht.
      split; [done | by constructor].
    + destruct (IH (S idx) results latest) as (l & Hl & Hs).
      exists l. split; [done | by constructor].
Qed.

(** The session a Full Refresh leaves. *)
Lemma step_full py_float s e :
  step py_float s FullRefresh e =
    (mkSession (fst (analyze (download e) (today e) (fst (scrape_symbols (page e)))
                                                   (snd (scrape_symbols (page e)))))
       (fst (scrape_symbols (page e))) (snd (scrape_symbols (page e)))
       (Some (now e)) (last_quick_refresh s)
       (Some (snd (analyze (download e) (today e) (fst (scrape_symbols (page e)))
                                                   (snd (scrape_symbols (page e)))))), Done).
Proof.
  unfold step. destruct (scrape_symbols (page e)) as [syms nms]. simpl.
  destruct (analyze (download e) (today e) syms nms). done.
Qed.

(** Every row of the snapshot a Full Refresh builds comes from one
    successful [analyze_one]. *)
Lemma full_row_origin py_float s e r :
  r ∈ df (fst (step py_float s FullRefresh e)) ->
  exists i d, fst (scrape_symbols (page e)) !! i = Some (Ticker r) /\
    analyze_one (download e) (today e) (snd (scrape_symbols (page e))) i (Ticker r) = Some (r, d).
Proof.
  rewrite step_full. simpl. unfold analyze. intros Hr.
  apply analyze_loop_elem in Hr as [Hr | (i & t & d & Hi & Ha)]; [inversion Hr|].
  simpl in Ha. pose proof Ha as Ha'.
  apply analyze_one_spec in Ha' as (_ & _ & _ & _ & _ & _ & _ & Ht & _). subst t. eauto.
Qed.

Lemma scrape_loop_cells rows syms nms :
  scrape_loop (map (fun row => mkRow (company_name row) (company_code row) []) rows) syms nms
  = scrape_loop rows syms nms.
Proof.
  revert syms nms. induction rows as [|row rows IH]; intros syms nms; simpl; [done|].
  destruct (company_name row), (company_code row); try apply IH.
  destruct (Nat.eqb _ 100); [done | apply IH].
Qed.

(** ** Full Refresh *)

(** C4: a Full Refresh always completes (reporting [Done]) whatever the
    provider does; a symbol whose download raises or returns an empty
    series has no row in the new snapshot; the snapshot's tickers are a
    subsequence of the scraped symbols; and every row is index-consistent:
    its ticker and name sit at the same index of the scraped lists, and its
    price is the last close of that same ticker's series. *)
Theorem full_refresh_partial_success py_float s e :
  let s' := fst (step py_float s FullRefresh e) in
  snd (step py_float s FullRefresh e) = Done /\
  symbols s' = fst (scrape_symbols (page e)) /\
  names s' = snd (scrape_symbols (page e)) /\
  map Ticker (df s') `sublist_of` symbols s' /\
  (forall r, r ∈ df s' ->
     exists i raw lb,
       symbols s' !! i = Some (Ticker r) /\ names s' !! i = Some (Name r) /\
       download e (yf_symbol (Ticker r)) 20 = Some raw /\
       last (prepare (today e) raw) = Some lb /\
       Current_Price r = Some (bar_close lb)) /\
  (forall t, download e (yf_symbol t) 20 = None \/ download e (yf_symbol t) 20 = Some [] ->
     forall r, r ∈ df s' -> Ticker r <> t).
Proof.
  cbv zeta.
  assert (Horig : forall r, r ∈ df (fst (step py_float s FullRefresh e)) ->
     exists i raw lb,
       symbols (fst (step py_float s FullRefresh e)) !! i = Some (Ticker r) /\
       names (fst (step py_float s FullRefresh e)) !! i = Some (Name r) /\
       download e (yf_symbol (Ticker r)) 20 = Some raw /\
       last (prepare (today e) raw) = Some lb /\
       Current_Price r = Some (bar_close lb)).
  { intros r Hr. pose proof (full_row_origin py_float s e r Hr) as (i & d & Hi & Ha).
    apply analyze_one_spec in Ha as (raw & lb & Hdl & Hlb & _ & _ & Hn & _ & Hp & _).
    rewrite step_full. simpl. exists i, raw, lb. auto 10. }
  rewrite step_full in Horig |- *. simpl in Horig |- *.
  split; [done|]. split; [done|]. split; [done|]. split.
  { unfold analyze. destruct (analyze_loop_sublist (download e) (today e)
      (snd (scrape_symbols (page e))) 0 (fst (scrape_symbols (page e))) [] None) as (l & Hl & Hs).
    rewrite Hl. done. }
  split; [exact Horig|].
  intros t Ht r Hr <-. destruct (Horig r Hr) as (i & raw & lb & _ & _ & Hdl & Hlb & _).
  destruct Ht as [Ht | Ht]; rewrite Ht in Hdl; [discriminate|].
  injection Hdl as <-. simpl in Hlb. discriminate.
Qed.

(** C5: when every bar the provider returns has [low <= high], every row
    a Full Refresh stores has [20D Low <= 20D High]. *)
Theorem full_refresh_high_ge_low py_float s e :
  (forall sym n raw b, download e sym n = Some raw -> b ∈ raw -> bar_low b <= bar_high b) ->
  forall r, r ∈ df (fst (step py_float s FullRefresh e)) -> Low_20D r <= High_20D r.
Proof.
  intros Hbars r Hr.
  destruct (full_row_origin py_float s e r Hr) as (i & d & _ & Ha).
  apply analyze_one_spec in Ha as (raw & lb & Hdl & Hlb & Hh & Hl & _).
  apply last_Some_elem_of in Hlb as Hin.
  pose proof (col_max_ge _ _ _ Hh lb Hin).
  pose proof (col_min_le _ _ _ Hl lb Hin).
  apply prepare_elem in Hin as (b0 & Hb0 & ->).
  pose proof (round_bar_low_high b0 (Hbars _ _ _ _ Hdl Hb0)). lia.
Qed.

(** C9: for a stored row whose 20-day series ends with a bar dated today,
    that bar is dropped: the stored 20D High and Low are the max High and
    min Low of the (rounded) series without its last bar. *)
Theorem full_refresh_drops_today_bar py_float s e r raw lb :
  r ∈ df (fst (step py_float s FullRefresh e)) ->
  download e (yf_symbol (Ticker r)) 20 = Some raw ->
  last raw = Some lb -> bar_date lb = today e ->
  col_max bar_high (removelast (map round_bar raw)) = Some (High_20D r) /\
  col_min bar_low (removelast (map round_bar raw)) = Some (Low_20D r).
Proof.
  intros Hr Hdl Hlast Hdate.
  destruct (full_row_origin py_float s e r Hr) as (i & d & _ & Ha).
  apply analyze_one_spec in Ha as (raw' & lb' & Hdl' & _ & Hh & Hl & _).
  rewrite Hdl in Hdl'. injection Hdl' as <-.
  rewrite (prepare_today (today e) raw lb Hlast Hdate) in Hh, Hl. done.
Qed.

(** C10: after a Full Refresh every row's current price is the last
    close of its ticker's (rounded, today-trimmed) series, and the listing
    page's table cells (where its quoted price lives) play no part: the
    same page with every row's cells erased gives the same snapshot. *)
Theorem full_refresh_price_is_last_close py_float s e :
  (forall r raw, r ∈ df (fst (step py_float s FullRefresh e)) ->
     download e (yf_symbol (Ticker r)) 20 = Some raw ->
     exists lb, last (prepare (today e) raw) = Some lb /\ Current_Price r = Some (bar_close lb)) /\
  df (fst (step py_float s FullRefresh
             (mkEnv (map (fun row => mkRow (company_name row) (company_code row) []) (page e))
                    (download e) (today e) (now e))))
  = df (fst (step py_float s FullRefresh e)).
Proof.
  split.
  - intros r raw Hr Hdl.
    destruct (full_row_origin py_float s e r Hr) as (i & d & _ & Ha).
    apply analyze_one_spec in Ha as (raw' & lb & Hdl' & Hlb & _ & _ & _ & _ & Hp & _).
    rewrite Hdl in Hdl'. injection Hdl' as <-. eauto.
  - rewrite !step_full. simpl. unfold scrape_symbols. rewrite scrape_loop_cells. done.
Qed.

(** ** Breakout filter *)

Lemma filter_sublist {A} (f : A -> bool) (l : list A) : List.filter f l `sublist_of` l.
Proof.
  induction l as [|a l IH]; simpl; [constructor|].
  destruct (f a); by constructor.
Qed.

Lemma elem_of_List_filter {A} (f : A -> bool) (l : list A) x :
  x ∈ List.filter f l <-> f x = true /\ x ∈ l.
Proof. rewrite !list_elem_of_In, filter_In. tauto. Qed.

(** C6: on a snapshot whose rows all have [20D Low <= 20D High], no row
    is both above its 20D High and below its 20D Low, and both tables keep
    the snapshot's row order (each is a subsequence of it). *)
Theorem breakout_disjoint_ordered (d : list TickerRow) :
  (forall r, r ∈ d -> Low_20D r <= High_20D r) ->
  (forall r, r ∈ fst (breakout d) -> r ∈ snd (breakout d) -> False) /\
  fst (breakout d) `sublist_of` d /\ snd (breakout d) `sublist_of` d.
Proof.
  intros Hd. simpl. split; [|split; apply filter_sublist].
  intros r Ha Hb.
  apply elem_of_List_filter in Ha as [Ha Hr], Hb as [Hb _].
  specialize (Hd r Hr). unfold above_high in Ha. unfold below_low in Hb.
  destruct (Current_Price r) as [p|]; [|discriminate].
  apply Z.ltb_lt in Ha, Hb. lia.
Qed.

(** ** Quick Refresh *)

(** C7: a Quick Refresh leaves the ticker, name, 20D High and 20D Low of
    every snapshot row as they were (and the rows in their order). *)
Theorem quick_refresh_keeps_other_fields py_float s e :
  map (fun r => (Ticker r, Name r, High_20D r, Low_20D r)) (df (fst (step py_float s QuickRefresh e)))
  = map (fun r => (Ticker r, Name r, High_20D r, Low_20D r)) (df s).
Proof.
  unfold step. destruct (symbols s); simpl; [done|].
  rewrite List.map_map. done.
Qed.

(** C1 (code): a snapshot row whose ticker is missing from the freshly
    scraped page loses its price: [df["Ticker"].map(price_map)] writes
    [NaN] for it. *)
Theorem quick_refresh_absent_symbol_loses_price :
  let s := mkSession [mkTickerRow "AAPL" "Apple Inc." (Some (usd 227 50)) (usd 230 0) (usd 200 0)]
             ["AAPL"] ["Apple Inc."] (Some 1) None (Some (Some 2)) in
  step sample_float s QuickRefresh (sample_env [msft_row] (mkBar 3 0 0 0))
  = (mkSession [mkTickerRow "AAPL" "Apple Inc." None (usd 230 0) (usd 200 0)]
       ["AAPL"] ["Apple Inc."] (Some 1) (Some 100) (Some (Some 2)), Done).
Proof. reflexivity. Qed.


(** C3: the claim that an empty snapshot always gets [NotInitialized]
    fails: after a Full Refresh whose every symbol was skipped, the
    snapshot is empty but the symbol list is not, and Quick Refresh runs. *)
Lemma quick_refresh_empty_snapshot_runs :
  ~ (forall py_float s e, df s = [] ->
       step py_float s QuickRefresh e = (s, NotInitialized)).
Proof.
  intros H.
  specialize (H sample_float (fst (step sample_float init_session FullRefresh all_skipped_env))
                all_skipped_env eq_refl).
  vm_compute in H. discriminate.
Qed.

(** C3 as the code has it: the guard is the stored symbol list.  With no
    symbols (in particular before any Full Refresh) Quick Refresh reports
    [NotInitialized] and changes nothing; with symbols it reports [Done],
    and on an empty snapshot it only stamps [last_quick_refresh]. *)
Theorem quick_refresh_guard py_float s e :
  step py_float init_session QuickRefresh e = (init_session, NotInitialized) /\
  (symbols s = [] -> step py_float s QuickRefresh e = (s, NotInitialized)) /\
  (symbols s <> [] -> snd (step py_float s QuickRefresh e) = Done) /\
  (symbols s <> [] -> df s = [] ->
     fst (step py_float s QuickRefresh e)
     = mkSession [] (symbols s) (names s) (last_full_refresh s) (Some (now e)) (latest_data_date s)).
Proof.
  split; [done|]. unfold step.
  destruct (symbols s) as [|t ts] eqn:Hs; simpl.
  - split; [done|]. split; intros Hne; done.
  - split; [done|]. split; [done|]. intros _ Hd. rewrite Hd. done.
Qed.

(** ** New-Extreme Check *)

(** C8: the New-Extreme Check leaves the session as it was, whatever the
    provider returns. *)
Theorem check_new_read_only py_float s e :
  fst (step py_float s CheckNew e) = s.
Proof.
  unfold step. destruct (symbols s); [done|].
  destruct (check_loop s (download e) 0 (_ :: _)). done.
Qed.

Lemma check_one_highs s dl idx t x :
  x ∈ fst (check_one s dl idx t) <->
  exists data lb prev n,
    dl (yf_symbol t) 2 = Some data /\ last data = Some lb /\
    stored_row (df s) t = Some prev /\ names s !! idx = Some n /\
    High_20D prev < bar_high lb /\ x = mkNewRow t n (bar_high lb) (High_20D prev).
Proof.
  unfold check_one. repeat case_match; simplify_eq/=;
    rewrite ?list_elem_of_singleton, ?elem_of_nil;
    repeat match goal with H : (_ <? _) = _ |- _ => first [apply Z.ltb_lt in H | apply Z.ltb_ge in H] end;
    naive_solver lia.
Qed.

Lemma check_one_lows s dl idx t x :
  x ∈ snd (check_one s dl idx t) <->
  exists data lb prev n,
    dl (yf_symbol t) 2 = Some data /\ last data = Some lb /\
    stored_row (df s) t = Some prev /\ names s !! idx = Some n /\
    bar_low lb < Low_20D prev /\ x = mkNewRow t n (bar_low lb) (Low_20D prev).
Proof.
  unfold check_one. repeat case_match; simplify_eq/=;
    rewrite ?list_elem_of_singleton, ?elem_of_nil;
    repeat match goal with H : (_ <? _) = _ |- _ => first [apply Z.ltb_lt in H | apply Z.ltb_ge in H] end;
    naive_solver lia.
Qed.

Lemma check_loop_elem s dl idx syms x :
  (x ∈ fst (check_loop s dl idx syms) <->
     exists i t, syms !! i = Some t /\ x ∈ fst (check_one s dl (idx + i)%nat t)) /\
  (x ∈ snd (check_loop s dl idx syms) <->
     exists i t, syms !! i = Some t /\ x ∈ snd (check_one s dl (idx + i)%nat t)).
Proof.
  revert idx. induction syms as [|t rest IH]; intros idx; simpl.
  - split; split; [intros Hx; inversion Hx | intros (i & t & Hi & _); done
                  |intros Hx; inversion Hx | intros (i & t & Hi & _); done].
  - destruct (check_one s dl idx t) as [h1 l1] eqn:Hc.
    destruct (check_loop s dl (S idx) rest) as [hs ls] eqn:Hl.
    destruct (IH (S idx)) as [IH1 IH2]. rewrite Hl in IH1, IH2. simpl in IH1, IH2.
    simpl. rewrite !elem_of_app, IH1, IH2.
    split; split.
    + intros [Hx | (i & t' & Hi & Hx)].
      * exists 0%nat, t. rewrite Nat.add_0_r, Hc. done.
      * exists (S i), t'. rewrite ?Nat.add_succ_r in *. done.
    + intros ([|i] & t' & Hi & Hx); simpl in Hi.
      * injection Hi as <-. rewrite Nat.add_0_r, Hc in Hx. by left.
      * right. exists i, t'. rewrite ?Nat.add_succ_r in *. done.
    + intros [Hx | (i & t' & Hi & Hx)].
      * exists 0%nat, t. rewrite Nat.add_0_r, Hc. done.
      * exists (S i), t'. rewrite ?Nat.add_succ_r in *. done.
    + intros ([|i] & t' & Hi & Hx); simpl in Hi.
      * injection Hi as <-. rewrite Nat.add_0_r, Hc in Hx. by left.
      * right. exists i, t'. rewrite ?Nat.add_succ_r in *. done.
Qed.


(** C2: the two New-Extreme lists are not disjoint: on a day whose high
    tops the stored 20D High and whose low undercuts the stored 20D Low,
    the symbol is in both lists. *)
Lemma check_new_lists_overlap :
  ~ (forall py_float s e hs ls,
       step py_float s CheckNew e = (s, NewExtremes hs ls) ->
       forall t, t ∈ map nr_ticker hs -> t ∈ map nr_ticker ls -> False).
Proof.
  intros H.
  apply (H sample_float after_full outside_day_env
           [mkNewRow "AAPL" "Apple Inc." (usd 235 0) (usd 230 0)]
           [mkNewRow "AAPL" "Apple Inc." (usd 195 0) (usd 200 0)] eq_refl "AAPL");
    simpl; apply list_elem_of_singleton; done.
Qed.

(** C2 as the code has it: once a Full Refresh has stored symbols, the
    check lists in NewHighs exactly the rows [(ticker, name, today's
    high, stored 20D High)] for a ticker and name at one index of the
    stored lists whose 2-day download succeeds with a non-empty series,
    whose ticker has a snapshot row (the first such row gives the stored
    values) and whose latest high is above the stored 20D High; NewLows
    likewise with the latest low below the stored 20D Low.  Nothing
    excludes a symbol from being in both. *)
Theorem check_new_membership py_float s e :
  symbols s <> [] ->
  exists hs ls,
    step py_float s CheckNew e = (s, NewExtremes hs ls) /\
    (forall x, x ∈ hs <->
       exists i data lb prev,
         symbols s !! i = Some (nr_ticker x) /\ names s !! i = Some (nr_name x) /\
         download e (yf_symbol (nr_ticker x)) 2 = Some data /\ last data = Some lb /\
         stored_row (df s) (nr_ticker x) = Some prev /\
         nr_today x = bar_high lb /\ nr_prev x = High_20D prev /\
         High_20D prev < bar_high lb) /\
    (forall x, x ∈ ls <->
       exists i data lb prev,
         symbols s !! i = Some (nr_ticker x) /\ names s !! i = Some (nr_name x) /\
         download e (yf_symbol (nr_ticker x)) 2 = Some data /\ last data = Some lb /\
         stored_row (df s) (nr_ticker x) = Some prev /\
         nr_today x = bar_low lb /\ nr_prev x = Low_20D prev /\
         bar_low lb < Low_20D prev).
Proof.
  intros Hne.
  exists (fst (check_loop s (download e) 0 (symbols s))),
         (snd (check_loop s (download e) 0 (symbols s))).
  split.
  { unfold step. destruct (symbols s) as [|t ts]; [done|].
    destruct (check_loop s (download e) 0 (t :: ts)). done. }
  split; intros x; [rewrite (proj1 (check_loop_elem _ _ _ _ x))
                   | rewrite (proj2 (check_loop_elem _ _ _ _ x))]; simpl;
    [setoid_rewrite check_one_highs | setoid_rewrite check_one_lows];
    (split;
     [ intros (i & t & Hi & data & lb & prev & n & Hd & Hl & Hp & Hn & Hlt & ->); simpl;
       exists i, data, lb, prev; auto 10
     | destruct x as [t n today prev']; simpl;
       intros (i & data & lb & prev & Hi & Hn & Hd & Hl & Hp & -> & -> & Hlt);
       exists i, t; split; [done|]; exists data, lb, prev, n; auto 10 ]).
Qed.

Lemma check_new_membership_witness :
  symbols after_full <> [] /\
  exists hs ls,
    step sample_float after_full CheckNew outside_day_env = (after_full, NewExtremes hs ls) /\
    (forall x, x ∈ hs <->
       exists i data lb prev,
         symbols after_full !! i = Some (nr_ticker x) /\ names after_full !! i = Some (nr_name x) /\
         download outside_day_env (yf_symbol (nr_ticker x)) 2 = Some data /\ last data = Some lb /\
         stored_row (df after_full) (nr_ticker x) = Some prev /\
         nr_today x = bar_high lb /\ nr_prev x = High_20D prev /\
         High_20D prev < bar_high lb) /\
    (forall x, x ∈ ls <->
       exists i data lb prev,
         symbols after_full !! i = Some (nr_ticker x) /\ names after_full !! i = Some (nr_name x) /\
         download outside_day_env (yf_symbol (nr_ticker x)) 2 = Some data /\ last data = Some lb /\
         stored_row (df after_full) (nr_ticker x) = Some prev /\
         nr_today x = bar_low lb /\ nr_prev x = Low_20D prev /\
         bar_low lb < Low_20D prev).
Proof.
  split; [vm_compute; discriminate|].
  apply (check_new_membership sample_float after_full outside_day_env).
  vm_compute. discriminate.
Defined.

(** ** Witnesses at concrete inputs *)


Lemma full_env_df : df (fst (step sample_float init_session FullRefresh full_env)) = [aapl_stored].
Proof. reflexivity. Qed.

Lemma full_refresh_high_ge_low_witness :
  (forall sym n raw b, download full_env sym n = Some raw -> b ∈ raw -> bar_low b <= bar_high b) /\
  Low_20D aapl_stored <= High_20D aapl_stored.
Proof.
  assert (Hbars : forall sym n raw b, download full_env sym n = Some raw -> b ∈ raw ->
                    bar_low b <= bar_high b).
  { intros sym n raw b. simpl. unfold sample_download.
    destruct (String.eqb sym "AAPL"); [destruct (n =? 20)|]; intros [= <-] Hb;
      repeat (apply elem_of_cons in Hb as [-> | Hb]; [simpl; unfold usd; lia|]);
      inversion Hb. }
  split; [exact Hbars|].
  apply (full_refresh_high_ge_low sample_float init_session full_env Hbars).
  rewrite full_env_df. apply list_elem_of_singleton. reflexivity.
Defined.

Lemma breakout_disjoint_ordered_witness :
  (forall r, r ∈ mixed_snapshot -> Low_20D r <= High_20D r) /\
  breakout mixed_snapshot = ([msft_stored; googl_stored], [nvda_stored]) /\
  (forall r, r ∈ fst (breakout mixed_snapshot) -> r ∈ snd (breakout mixed_snapshot) -> False) /\
  fst (breakout mixed_snapshot) `sublist_of` mixed_snapshot /\
  snd (breakout mixed_snapshot) `sublist_of` mixed_snapshot.
Proof.
  assert (Hd : forall r, r ∈ mixed_snapshot -> Low_20D r <= High_20D r).
  { intros r Hr. unfold mixed_snapshot in Hr.
    repeat (apply elem_of_cons in Hr as [-> | Hr]; [simpl; unfold usd; lia|]).
    inversion Hr. }
  split; [exact Hd|]. split; [reflexivity|].
  apply (breakout_disjoint_ordered mixed_snapshot Hd).
Defined.


Example with_today_df :
  df (fst (step sample_float init_session FullRefresh with_today_env)) = [aapl_stored].
Proof. reflexivity. Qed.

Lemma full_refresh_drops_today_bar_witness :
  aapl_stored ∈ df (fst (step sample_float init_session FullRefresh with_today_env)) /\
  download with_today_env (yf_symbol (Ticker aapl_stored)) 20 = Some today_bars /\
  last today_bars = Some (mkBar 3 (usd 240 0) (usd 190 0) (usd 239 0)) /\
  bar_date (mkBar 3 (usd 240 0) (usd 190 0) (usd 239 0)) = today with_today_env /\
  col_max bar_high (removelast (map round_bar today_bars)) = Some (High_20D aapl_stored) /\
  col_min bar_low (removelast (map round_bar today_bars)) = Some (Low_20D aapl_stored).
Proof.
  assert (Hr : aapl_stored ∈ df (fst (step sample_float init_session FullRefresh with_today_env))).
  { assert (Hd : df (fst (step sample_float init_session FullRefresh with_today_env)) = [aapl_stored])
      by reflexivity.
    rewrite Hd. apply list_elem_of_singleton. reflexivity. }
  split; [exact Hr|]. split; [reflexivity|]. split; [reflexivity|]. split; [reflexivity|].
  apply (full_refresh_drops_today_bar sample_float init_session with_today_env aapl_stored
           today_bars (mkBar 3 (usd 240 0) (usd 190 0) (usd 239 0)) Hr);
    reflexivity.
Defined.

(** ** Further properties of the code *)


(** [ticker.replace(".", "-")] leaves no dot, keeps the length, and leaves
    a ticker without dots as it is. *)
Theorem yf_symbol_no_dot t :
  (("."%char) ∉ String.list_ascii_of_string (yf_symbol t)) /\
  String.length (yf_symbol t) = String.length t /\
  (("."%char) ∉ String.list_ascii_of_string t -> yf_symbol t = t).
Proof.
  unfold yf_symbol. induction t as [|x t IH]; simpl.
  - split; [apply not_elem_of_nil|]. split; [done|]. done.
  - destruct IH as (IH1 & IH2 & IH3).
    destruct (Ascii.eqb_spec x "."%char) as [->|Hx].
    + split; [|split; [by rewrite IH2|]].
      * rewrite elem_of_cons. intros [H|H]; [discriminate|done].
      * intros H. exfalso. apply H. left.
    + split; [|split; [by rewrite IH2|]].
      * rewrite elem_of_cons. intros [H|H]; [congruence|done].
      * intros H. rewrite IH3; [done|]. intros H'. apply H. by right.
Qed.


Lemma scrape_loop_zip rows syms nms :
  length syms = length nms -> (length nms < 100)%nat ->
  zip (fst (scrape_loop rows syms nms)) (snd (scrape_loop rows syms nms))
    = zip syms nms ++ take (100 - length nms) (omap tagged_pair rows) /\
  length (fst (scrape_loop rows syms nms)) = length (snd (scrape_loop rows syms nms)).
Proof.
  revert syms nms. induction rows as [|row rows IH]; intros syms nms Hlen Hlt; simpl.
  - rewrite take_nil, app_nil_r. done.
  - unfold tagged_pair at 1.
    destruct (company_name row) as [n|], (company_code row) as [c|]; simpl; try (apply IH; done).
    assert (Hz : zip (syms ++ [c]) (nms ++ [n]) = zip syms nms ++ [(c, n)])
      by (rewrite zip_with_app by done; done).
    destruct (Nat.eqb_spec (length (nms ++ [n])) 100) as [Heq|Hne].
    + rewrite length_app in Heq. simpl in Heq.
      replace (100 - length nms)%nat with 1%nat by lia. simpl.
      rewrite Hz, !length_app. simpl. split; [done | lia].
    + rewrite length_app in Hne. simpl in Hne.
      destruct (IH (syms ++ [c]) (nms ++ [n])) as [IH1 IH2];
        [rewrite !length_app; simpl; lia | rewrite length_app; simpl; lia|].
      split; [|done]. rewrite IH1, Hz, length_app. simpl.
      replace (100 - length nms)%nat with (S (100 - (length nms + 1)))%nat by lia.
      rewrite <- app_assoc. done.
Qed.

(** [scrape_symbols] returns, index-aligned, the codes and names of the
    first 100 listing rows that carry both a company name and a company
    code, in page order; rows missing either are skipped. *)
Theorem scrape_symbols_first_100 rows :
  zip (fst (scrape_symbols rows)) (snd (scrape_symbols rows))
    = take 100 (omap tagged_pair rows) /\
  length (fst (scrape_symbols rows)) = length (snd (scrape_symbols rows)) /\
  (length (snd (scrape_symbols rows)) <= 100)%nat.
Proof.
  unfold scrape_symbols.
  destruct (scrape_loop_zip rows [] [] eq_refl ltac:(simpl; lia)) as [H1 H2].
  simpl in H1. split; [exact H1|]. split; [exact H2|].
  assert (Hl := f_equal length H1).
  rewrite length_zip_with, length_take in Hl. lia.
Qed.

(** [build_price_map] is a left fold over the page rows. *)
Lemma build_price_map_snoc py_float rows row m :
  build_price_map py_float (rows ++ [row]) m = build_price_map py_float [row] (build_price_map py_float rows m).
Proof.
  revert m. induction rows as [|row' rows IH]; intros m; simpl; [done|].
  destruct (company_code row'); [destruct (Nat.ltb _ 5)|]; apply IH.
Qed.

Lemma price_map_one py_float row m sym :
  (company_code row = Some sym /\ (5 <= length (cells row))%nat /\
   build_price_map py_float [row] m !! sym
   = Some (py_float (remove_char ","%char (remove_char "$"%char (nth 4 (cells row) ""%string))))) \/
  (~ (company_code row = Some sym /\ (5 <= length (cells row))%nat) /\
   build_price_map py_float [row] m !! sym = m !! sym).
Proof.
  simpl. destruct (company_code row) as [c|]; [|right; split; [intros [H _]; discriminate | done]].
  destruct (Nat.ltb_spec (length (cells row)) 5).
  - right. split; [intros [_ H']; lia | done].
  - destruct (decide (c = sym)) as [->|Hne].
    + left. split; [done|]. split; [done|]. by rewrite lookup_insert_eq.
    + right. split; [intros [[=] _]; done|]. by rewrite lookup_insert_ne.
Qed.

Lemma snoc_split {A} (l : list A) x pre y post :
  l ++ [x] = pre ++ y :: post ->
  (post = [] /\ l = pre /\ x = y) \/ (exists post', post = post' ++ [x] /\ l = pre ++ y :: post').
Proof.
  destruct post as [|p post _] using rev_ind; intros H.
  - left. apply app_inj_tail in H as [-> ->]. done.
  - right. rewrite app_comm_cons, app_assoc in H. apply app_inj_tail in H as [-> ->]. eauto.
Qed.

(** The Quick Refresh [price_map]: [sym] has an entry exactly when some
    page row with company code [sym] has at least five cells, and the entry
    is [float] of the fifth cell, stripped of ["$"] and [","], of the LAST
    such row (later rows overwrite earlier ones). *)
Theorem price_map_lookup py_float rows sym v :
  build_price_map py_float rows ∅ !! sym = Some v <->
  exists pre row post,
    rows = pre ++ row :: post /\
    company_code row = Some sym /\ (5 <= length (cells row))%nat /\
    v = py_float (remove_char ","%char (remove_char "$"%char (nth 4 (cells row) ""%string))) /\
    (forall row', row' ∈ post -> company_code row' = Some sym -> (length (cells row') < 5)%nat).
Proof.
  induction rows as [|row rows IH] using rev_ind.
  - simpl. rewrite lookup_empty. split; [discriminate|].
    intros (pre & row & post & H & _). destruct pre; discriminate.
  - rewrite build_price_map_snoc.
    destruct (price_map_one py_float row (build_price_map py_float rows ∅) sym)
      as [(Hc & Hl & ->) | (Hn & ->)].
    + split.
      * intros [= <-]. exists rows, row, [].
        split; [done|]. split; [done|]. split; [done|]. split; [done|].
        intros r' Hr'. inversion Hr'.
      * intros (pre & row' & post & Hsplit & Hc' & Hl' & -> & Hpost).
        apply snoc_split in Hsplit as [(-> & -> & ->) | (post' & -> & _)]; [done|].
        specialize (Hpost row). rewrite elem_of_app, list_elem_of_singleton in Hpost.
        specialize (Hpost (or_intror eq_refl) Hc). lia.
    + rewrite IH. split.
      * intros (pre & row' & post & -> & Hc' & Hl' & Hv & Hpost).
        exists pre, row', (post ++ [row]). rewrite <- app_assoc. split; [done|].
        split; [done|]. split; [done|]. split; [done|].
        intros r' Hr' Hcr'. apply elem_of_app in Hr' as [Hr'|Hr']; [auto|].
        apply list_elem_of_singleton in Hr' as ->.
        destruct (Nat.lt_ge_cases (length (cells row)) 5); [done|]. exfalso. auto.
      * intros (pre & row' & post & Hsplit & Hc' & Hl' & Hv & Hpost).
        apply snoc_split in Hsplit as [(-> & -> & ->) | (post' & -> & ->)]; [exfalso; auto|].
        exists pre, row', post'. split; [done|]. split; [done|]. split; [done|]. split; [done|].
        intros r' Hr'. apply Hpost. apply elem_of_app. by left.
Qed.

Lemma lookup_List_map {A B} (f : A -> B) (l : list A) i :
  List.map f l !! i = f <$> l !! i.
Proof. revert i. induction l as [|a l IH]; intros [|i]; simpl; auto. Qed.

(** Quick Refresh on an initialised session: every snapshot row keeps its
    place, ticker, name, 20D High and 20D Low; its price becomes the parsed
    price of the last page row listing its ticker with at least five cells,
    and [NaN] when the page has no such row. *)
Theorem quick_refresh_row_price py_float s e i r :
  symbols s <> [] -> df s !! i = Some r ->
  exists r',
    df (fst (step py_float s QuickRefresh e)) !! i = Some r' /\
    Ticker r' = Ticker r /\ Name r' = Name r /\
    High_20D r' = High_20D r /\ Low_20D r' = Low_20D r /\
    (forall pre row post,
       page e = pre ++ row :: post ->
       company_code row = Some (Ticker r) -> (5 <= length (cells row))%nat ->
       (forall row', row' ∈ post -> company_code row' = Some (Ticker r) -> (length (cells row') < 5)%nat) ->
       Current_Price r' = py_float (remove_char ","%char (remove_char "$"%char (nth 4 (cells row) ""%string)))) /\
    ((forall row, row ∈ page e -> company_code row = Some (Ticker r) -> (length (cells row) < 5)%nat) ->
     Current_Price r' = None).
Proof.
  intros Hne Hi. unfold step. destruct (symbols s) as [|t ts]; [done|]. simpl.
  rewrite lookup_List_map, Hi. simpl.
  exists (map_price (build_price_map py_float (page e) ∅) r).
  split; [done|]. split; [done|]. split; [done|]. split; [done|]. split; [done|]. split.
  - intros pre row post Hp Hc Hl Hpost.
    assert (Hm : build_price_map py_float (page e) ∅ !! Ticker r
                 = Some (py_float (remove_char ","%char (remove_char "$"%char (nth 4 (cells row) ""%string)))))
      by (apply price_map_lookup; exists pre, row, post; auto 10).
    unfold map_price. simpl. rewrite Hm. done.
  - intros Hnone. unfold map_price. simpl.
    destruct (build_price_map py_float (page e) ∅ !! Ticker r) as [v|] eqn:Hm; [|done].
    apply price_map_lookup in Hm as (pre & row & post & Hp & Hc & Hl & _).
    assert (Hrow : row ∈ page e) by (rewrite Hp; apply elem_of_app; right; left).
    specialize (Hnone row Hrow Hc). lia.
Qed.

(** Quick Refresh is idempotent: a second Quick Refresh against the same
    page (and clock) leaves the session as the first one left it. *)
Theorem quick_refresh_idempotent py_float s e :
  fst (step py_float (fst (step py_float s QuickRefresh e)) QuickRefresh e)
  = fst (step py_float s QuickRefresh e).
Proof.
  unfold step. destruct (symbols s) as [|t ts] eqn:Hs; simpl; rewrite ?Hs; [done|].
  rewrite List.map_map. done.
Qed.





(** The snapshot a Full Refresh builds has at most as many rows as symbols
    were scraped, the symbol and name lists have the same length, and
    there are at most 100 of them. *)
Theorem full_refresh_sizes py_float s e :
  let s' := fst (step py_float s FullRefresh e) in
  (length (df s') <= length (symbols s'))%nat /\
  length (symbols s') = length (names s') /\
  (length (symbols s') <= 100)%nat.
Proof.
  cbv zeta.
  destruct (full_refresh_partial_success py_float s e) as (_ & Hsy & Hna & Hsub & _).
  apply sublist_length in Hsub. rewrite length_map in Hsub.
  destruct (scrape_symbols_first_100 (page e)) as (_ & Hl & H100).
  rewrite Hsy, Hna. split; [rewrite <- Hsy; done|]. split; [done|]. lia.
Qed.

Lemma check_one_no_row s dl idx t :
  df s = [] -> check_one s dl idx t = ([], []).
Proof.
  intros Hd. unfold check_one, stored_row. rewrite Hd. simpl.
  destruct (dl (yf_symbol t) 2) as [[|b data]|]; [done| |done].
  destruct (last (b :: data)); done.
Qed.

(** New-Extreme Check on a session with symbols but an empty snapshot
    (every symbol skipped by the last Full Refresh) reports two empty
    lists: each snapshot lookup raises and the symbol is skipped. *)
Theorem check_new_empty_snapshot py_float s e :
  symbols s <> [] -> df s = [] ->
  step py_float s CheckNew e = (s, NewExtremes [] []).
Proof.
  intros Hne Hd. unfold step. destruct (symbols s) as [|t ts] eqn:Hs; [done|].
  assert (H : forall idx syms, check_loop s (download e) idx syms = ([], [])).
  { intros idx syms. revert idx. induction syms as [|t' syms IH]; intros idx; simpl; [done|].
    rewrite check_one_no_row by done. rewrite IH. done. }
  rewrite H. done.
Qed.

Lemma check_one_sizes s dl idx t :
  (length (fst (check_one s dl idx t)) <= 1)%nat /\ (length (snd (check_one s dl idx t)) <= 1)%nat.
Proof. unfold check_one. repeat case_match; simplify_eq/=; lia. Qed.

Lemma check_one_ticker s dl idx t x :
  x ∈ fst (check_one s dl idx t) \/ x ∈ snd (check_one s dl idx t) -> nr_ticker x = t.
Proof.
  intros [Hx|Hx]; [apply check_one_highs in Hx | apply check_one_lows in Hx];
    destruct Hx as (data & lb & prev & n & _ & _ & _ & _ & _ & Hx); rewrite Hx; done.
Qed.

Lemma filter_all_false {A} (f : A -> bool) (l : list A) :
  (forall x, x ∈ l -> f x = false) -> List.filter f l = [].
Proof.
  induction l as [|a l IH]; intros H; simpl; [done|].
  rewrite (H a ltac:(left)). apply IH. intros x Hx. apply H. by right.
Qed.

Lemma length_List_filter_app {A} (f : A -> bool) (l k : list A) :
  length (List.filter f (l ++ k)) = (length (List.filter f l) + length (List.filter f k))%nat.
Proof. induction l as [|a l IH]; simpl; [done|]. destruct (f a); simpl; lia. Qed.

Lemma length_List_filter_le {A} (f : A -> bool) (l : list A) :
  (length (List.filter f l) <= length l)%nat.
Proof. induction l as [|a l IH]; simpl; [lia|]. destruct (f a); simpl; lia. Qed.

Lemma check_one_per_symbol s dl idx t' t :
  (length (List.filter (fun x => String.eqb (nr_ticker x) t) (fst (check_one s dl idx t')))
     <= if String.eqb t' t then 1 else 0)%nat /\
  (length (List.filter (fun x => String.eqb (nr_ticker x) t) (snd (check_one s dl idx t')))
     <= if String.eqb t' t then 1 else 0)%nat.
Proof.
  destruct (check_one_sizes s dl idx t') as [H1 H2].
  destruct (String.eqb_spec t' t) as [->|Hne].
  - pose proof (length_List_filter_le (fun x => String.eqb (nr_ticker x) t) (fst (check_one s dl idx t))).
    pose proof (length_List_filter_le (fun x => String.eqb (nr_ticker x) t) (snd (check_one s dl idx t))).
    lia.
  - split; rewrite filter_all_false; simpl; try lia;
      intros x Hx; apply String.eqb_neq;
      rewrite (check_one_ticker s dl idx t' x); auto.
Qed.

(** New-Extreme Check adds at most one row per stored symbol to each of
    its two lists: a ticker has no more rows in either list than it has
    occurrences in the stored symbol list (so neither list is longer than
    the symbol list). *)
Theorem check_new_sizes py_float s e hs ls :
  step py_float s CheckNew e = (s, NewExtremes hs ls) ->
  (forall t,
     (length (List.filter (fun x => String.eqb (nr_ticker x) t) hs)
        <= length (List.filter (fun u => String.eqb u t) (symbols s)))%nat /\
     (length (List.filter (fun x => String.eqb (nr_ticker x) t) ls)
        <= length (List.filter (fun u => String.eqb u t) (symbols s)))%nat) /\
  (length hs <= length (symbols s))%nat /\ (length ls <= length (symbols s))%nat.
Proof.
  unfold step. destruct (symbols s) as [|t0 ts]; [discriminate|].
  assert (H : forall idx syms,
    (forall t,
       (length (List.filter (fun x => String.eqb (nr_ticker x) t) (fst (check_loop s (download e) idx syms)))
          <= length (List.filter (fun u => String.eqb u t) syms))%nat /\
       (length (List.filter (fun x => String.eqb (nr_ticker x) t) (snd (check_loop s (download e) idx syms)))
          <= length (List.filter (fun u => String.eqb u t) syms))%nat) /\
    (length (fst (check_loop s (download e) idx syms)) <= length syms)%nat /\
    (length (snd (check_loop s (download e) idx syms)) <= length syms)%nat).
  { intros idx syms. revert idx. induction syms as [|t' syms IH]; intros idx; simpl.
    { split; [intros t; simpl; lia | lia]. }
    destruct (check_one s (download e) idx t') as [h1 l1] eqn:Hc.
    destruct (check_loop s (download e) (S idx) syms) as [hs' ls'] eqn:Hl.
    destruct (check_one_sizes s (download e) idx t') as [S1 S2]. rewrite Hc in S1, S2.
    destruct (IH (S idx)) as (IHt & T1 & T2). rewrite Hl in IHt, T1, T2. simpl in *.
    split; [|rewrite !length_app; lia].
    intros t. destruct (check_one_per_symbol s (download e) idx t' t) as [P1 P2].
    rewrite Hc in P1, P2. simpl in P1, P2. destruct (IHt t) as [Q1 Q2].
    rewrite !length_List_filter_app.
    destruct (String.eqb t' t); simpl; lia. }
  destruct (H 0%nat (t0 :: ts)) as (Ht & H1 & H2).
  destruct (check_loop s (download e) 0 (t0 :: ts)) as [hs' ls']. intros [= <- <-]. auto.
Qed.

Lemma quick_refresh_row_price_witness :
  symbols after_full <> [] /\ df after_full !! 0%nat = Some aapl_stored /\
  exists r',
    df (fst (step sample_float after_full QuickRefresh quick_env)) !! 0%nat = Some r' /\
    Ticker r' = Ticker aapl_stored /\ Name r' = Name aapl_stored /\
    High_20D r' = High_20D aapl_stored /\ Low_20D r' = Low_20D aapl_stored /\
    (forall pre row post,
       page quick_env = pre ++ row :: post ->
       company_code row = Some (Ticker aapl_stored) -> (5 <= length (cells row))%nat ->
       (forall row', row' ∈ post -> company_code row' = Some (Ticker aapl_stored) ->
                     (length (cells row') < 5)%nat) ->
       Current_Price r' = sample_float (remove_char ","%char (remove_char "$"%char (nth 4 (cells row) ""%string)))) /\
    ((forall row, row ∈ page quick_env -> company_code row = Some (Ticker aapl_stored) ->
                  (length (cells row) < 5)%nat) ->
     Current_Price r' = None).
Proof.
  assert (H1 : symbols after_full <> []) by (vm_compute; discriminate).
  assert (H2 : df after_full !! 0%nat = Some aapl_stored) by reflexivity.
  split; [exact H1|]. split; [exact H2|].
  exact (quick_refresh_row_price sample_float after_full quick_env 0%nat aapl_stored H1 H2).
Defined.

Lemma check_new_empty_snapshot_witness :
  symbols (fst (step sample_float init_session FullRefresh all_skipped_env)) <> [] /\
  df (fst (step sample_float init_session FullRefresh all_skipped_env)) = [] /\
  step sample_float (fst (step sample_float init_session FullRefresh all_skipped_env)) CheckNew
    all_skipped_env
  = (fst (step sample_float init_session FullRefresh all_skipped_env), NewExtremes [] []).
Proof.
  assert (H1 : symbols (fst (step sample_float init_session FullRefresh all_skipped_env)) <> [])
    by (vm_compute; discriminate).
  assert (H2 : df (fst (step sample_float init_session FullRefresh all_skipped_env)) = [])
    by reflexivity.
  split; [exact H1|]. split; [exact H2|].
  exact (check_new_empty_snapshot sample_float _ all_skipped_env H1 H2).
Defined.

Lemma check_new_sizes_witness :
  step sample_float multi_session CheckNew multi_env
  = (multi_session,
     NewExtremes [mkNewRow "AAPL" "Apple Inc." (usd 235 0) (usd 230 0);
                  mkNewRow "MSFT" "Microsoft" (usd 430 0) (usd 415 0)]
                 [mkNewRow "AAPL" "Apple Inc." (usd 195 0) (usd 200 0)]) /\
  (forall t,
     (length (List.filter (fun x => String.eqb (nr_ticker x) t)
               [mkNewRow "AAPL" "Apple Inc." (usd 235 0) (usd 230 0);
                mkNewRow "MSFT" "Microsoft" (usd 430 0) (usd 415 0)])
        <= length (List.filter (fun u => String.eqb u t) (symbols multi_session)))%nat /\
     (length (List.filter (fun x => String.eqb (nr_ticker x) t)
               [mkNewRow "AAPL" "Apple Inc." (usd 195 0) (usd 200 0)])
        <= length (List.filter (fun u => String.eqb u t) (symbols multi_session)))%nat) /\
  (length [mkNewRow "AAPL" "Apple Inc." (usd 235 0) (usd 230 0);
           mkNewRow "MSFT" "Microsoft" (usd 430 0) (usd 415 0)]
     <= length (symbols multi_session))%nat /\
  (length [mkNewRow "AAPL" "Apple Inc." (usd 195 0) (usd 200 0)]
     <= length (symbols multi_session))%nat.
Proof.
  assert (H : step sample_float multi_session CheckNew multi_env
              = (multi_session,
                 NewExtremes [mkNewRow "AAPL" "Apple Inc." (usd 235 0) (usd 230 0);
                              mkNewRow "MSFT" "Microsoft" (usd 430 0) (usd 415 0)]
                             [mkNewRow "AAPL" "Apple Inc." (usd 195 0) (usd 200 0)]))
    by reflexivity.
  split; [exact H|]. exact (check_new_sizes sample_float multi_session multi_env _ _ H).
Defined.
